(** * kmer-abund-hist: abundance aggregation and histogram construction

    A shallow embedding of [kmer-abund-hist.py] (function [abundhist]) and
    the properties its specification states about it.

    Python integers are [Z]; k-mer hash values (64-bit unsigned) are [N];
    Python dictionaries are stdpp [gmap]s; the console, the plot and the
    CSV files are a log of events; a raised exception ends the run and
    keeps the log written so far.

    [numpy.histogram] and [numpy.linspace] belong to an external library.
    They are modelled in module [numpy] after the library's algorithm for
    an integer bin count with an explicit range, with exact rationals [Q]
    where the library computes in binary64: rounding of the bin edges is
    not modelled. *)

From Stdlib Require Import ZArith QArith Qround Lqa String Ascii List Lia.
From Stdlib Require Import Sorting.Sorted DecimalString DecimalPos DecimalZ.
From stdpp Require Import gmap strings list fin_maps.

Open Scope Z_scope.

(** ** Exceptions, events and the two monads *)

Inductive exception : Type :=
| ValueError (msg : string)
| NameError (name : string)
| UnboundLocalError (name : string).

(** What a run does to the outside world, in order. *)
Inductive event : Type :=
| set_quiet_ev (quiet : bool)
| notify_ev (s : string) (args : list Z)
| barh_ev (counts : list Z) (labels : list string)
| show_ev
| open_ev (path : string)
| writerow_ev (path : string) (row : list string)
| close_ev (path : string).

(** A computation that may raise. *)
Definition result (A : Type) : Type := exception + A.

#[global] Instance result_ret : MRet result := fun A x => inr x.
#[global] Instance result_bind : MBind result := fun A B f m =>
  match m with
  | inl e => inl e
  | inr x => f x
  end.

Definition raise {A : Type} (e : exception) : result A := inl e.

(** A computation that may raise and that writes to the event log. *)
Definition M (A : Type) : Type := list event -> list event * result A.

#[global] Instance M_ret : MRet M := fun A x log => (log, inr x).
#[global] Instance M_bind : MBind M := fun A B f m log =>
  match m log with
  | (log', inl e) => (log', inl e)
  | (log', inr x) => f x log'
  end.

Definition lift {A : Type} (r : result A) : M A := fun log => (log, r).
Definition emit (e : event) : M unit := fun log => (log ++ [e], inr tt).

(** The log and the outcome of a whole run. *)
Definition run {A : Type} (m : M A) : list event * result A := m [].

(** ** Python built-ins *)

(** [sub in s] on strings: [sub] occurs in [s] as a contiguous substring. *)
Fixpoint py_in (sub s : string) : bool :=
  String.prefix sub s ||
  match s with
  | EmptyString => false
  | String _ s' => py_in sub s'
  end.

(** [str(x)] of an integer. *)
Definition str (x : Z) : string := NilZero.string_of_int (Z.to_int x).

(** [len(l)]. *)
Definition len {A : Type} (l : list A) : Z := Z.of_nat (length l).

(** [max(l)]: raises on an empty sequence. *)
Definition py_max (l : list Z) : result Z :=
  match l with
  | [] => raise (ValueError "max() arg is an empty sequence")
  | x :: l' => mret (foldl Z.max x l')
  end.

(** Truth value of an optional string argument ([None] and [''] are false). *)
Definition truthy (o : option string) : bool :=
  match o with
  | None => false
  | Some s => negb (String.eqb s "")
  end.

(** ** Name resolution

    The names the module binds (lines 9-18, 21 and 59) and the built-ins the
    function uses.  Any other global name raises [NameError] when it is
    evaluated. *)
Definition module_globals : list string :=
  ["sys"; "argparse"; "numpy"; "collections"; "tpl"; "sourmash";
   "sourmash_args"; "add_moltype_args"; "add_ksize_arg"; "set_quiet";
   "notify"; "main"; "abundhist"]%string.

Definition builtins : list string :=
  ["list"; "len"; "max"; "str"; "zip"; "int"]%string.

Definition global_name (x : string) : M unit :=
  if existsb (String.eqb x) (module_globals ++ builtins) then mret tt
  else lift (raise (NameError x)).

(** A local variable that is read before any assignment reached it. *)
Definition local_name {A : Type} (x : string) (v : option A) : M A :=
  match v with
  | Some a => mret a
  | None => lift (raise (UnboundLocalError x))
  end.

(** ** sourmash: signatures and the collaborators of the script *)

Record MinHash : Type := { hashes : gmap N Z }.

Record SourmashSignature : Type := {
  md5sum : string;
  name : string;
  minhash : MinHash
}.

(** The parsed command line ([argparse.Namespace]). *)
Record Namespace : Type := {
  args_signatures : list string;
  args_quiet : bool;
  args_output : option string;
  args_abundances : option string;
  args_md5 : option string;
  args_name : option string;
  args_max : option Z;
  args_min : option Z;
  args_bins : Z;
  args_ksize : Z
}.

(** The parts of sourmash the script calls and does not define: the loader
    (with its k-mer size and molecule type selection) and the molecule type
    chosen on the command line. *)
Record Sourmash : Type := {
  calculate_moltype : Namespace -> option string;
  load_file_as_signatures : string -> Z -> option string -> list SourmashSignature
}.

Definition set_quiet (quiet : bool) : M unit :=
  global_name "set_quiet";; emit (set_quiet_ev quiet).

Definition notify (s : string) (args : list Z) : M unit :=
  global_name "notify";; emit (notify_ev s args).

(** ** numpy *)

Module numpy.

(** [astype(int)] on one element: truncation towards zero. *)
Definition astype_int (x : Q) : Z := Z.quot (Qnum x) (Zpos (Qden x)).

Definition Qlt_bool (x y : Q) : bool := negb (Qle_bool y x).

(** [linspace(start, stop, num)] with the end point included: the samples
    are [start + i * step], the last one is [stop] itself. *)
Definition linspace (start stop : Q) (num : nat) : list Q :=
  let div := (num - 1)%nat in
  let step := ((stop - start) / inject_Z (Z.of_nat div))%Q in
  map (fun i => if (i =? div)%nat then stop
                else (start + inject_Z (Z.of_nat i) * step)%Q)
      (seq 0 num).

(** [_get_outer_edges(a, range)] with a range given: an inverted range is
    refused, an empty one is widened by a half on each side. *)
Definition outer_edges (range : Z * Z) : result (Q * Q) :=
  let '(first_edge, last_edge) := range in
  if last_edge <? first_edge
  then raise (ValueError "max must be larger than min in range parameter.")
  else if first_edge =? last_edge
  then mret ((inject_Z first_edge - (1 # 2))%Q, (inject_Z last_edge + (1 # 2))%Q)
  else mret (inject_Z first_edge, inject_Z last_edge).

(** [bin_edges[i]]. *)
Definition edge (bin_edges : list Q) (i : Z) : Q :=
  nth (Z.to_nat i) bin_edges 0%Q.

(** The bin of one kept value: the scaled position truncated, the value
    on the last edge put into the last bin, then one step down or up
    where the edges disagree with the scaled position. *)
Definition bin_index (bin_edges : list Q) (first_edge last_edge : Q)
    (n_equal_bins : Z) (v : Z) : Z :=
  let norm_denom := (last_edge - first_edge)%Q in
  let f_index :=
    ((inject_Z v - first_edge) / norm_denom * inject_Z n_equal_bins)%Q in
  let index := astype_int f_index in
  let index := if index =? n_equal_bins then index - 1 else index in
  let index :=
    if Qlt_bool (inject_Z v) (edge bin_edges index) then index - 1 else index in
  let index :=
    if Qle_bool (edge bin_edges (index + 1)) (inject_Z v)
       && negb (index =? n_equal_bins - 1)
    then index + 1 else index in
  index.

(** [bincount(indices, minlength=n)] for indices within [0, n): how often
    each bin number occurs. *)
Definition bincount (indices : list Z) (n : Z) : list Z :=
  map (fun b => len (filter (fun i => i =? Z.of_nat b) indices))
      (seq 0 (Z.to_nat n)).

(** [histogram(a, range=range, bins=bins)] for an integer [bins]: the
    counts and the [bins + 1] edges. *)
Definition histogram (a : list Z) (range : Z * Z) (bins : Z)
    : result (list Z * list Q) :=
  let n_equal_bins := bins in
  if n_equal_bins <? 1
  then raise (ValueError "`bins` must be positive, when an integer")
  else
    '(first_edge, last_edge) ← outer_edges range;
    let bin_edges := linspace first_edge last_edge (Z.to_nat n_equal_bins + 1) in
    let keep v :=
      Qle_bool first_edge (inject_Z v) && Qle_bool (inject_Z v) last_edge in
    let tmp_a := filter keep a in
    let indices := map (bin_index bin_edges first_edge last_edge n_equal_bins) tmp_a in
    mret (bincount indices n_equal_bins, bin_edges).

End numpy.

(** ** The script, lines 64-131 *)

(** Lines 76-80: the md5 and name selectors applied to one loaded list. *)
Definition select (md5 name_ : option string) (siglist : list SourmashSignature)
    : list SourmashSignature :=
  let siglist :=
    match md5 with
    | Some m => filter (fun ss => py_in m (md5sum ss)) siglist
    | None => siglist
    end in
  let siglist :=
    match name_ with
    | Some n => filter (fun ss => py_in n (name ss)) siglist
    | None => siglist
    end in
  siglist.

(** Lines 67-80: the loop over the positional arguments.  The state is the
    pair of the variables the loop assigns: [siglist] (unbound before the
    first iteration) and [total_loaded]. *)
Definition load_step (sm : Sourmash) (args : Namespace) (moltype : option string)
    (st : option (list SourmashSignature) * Z) (filename : string)
    : option (list SourmashSignature) * Z :=
  let '(_, total_loaded) := st in
  let siglist := load_file_as_signatures sm filename (args_ksize args) moltype in
  let total_loaded := total_loaded + len siglist in
  let siglist := select (args_md5 args) (args_name args) siglist in
  (Some siglist, total_loaded).

Definition load_loop (sm : Sourmash) (args : Namespace) (moltype : option string)
    : option (list SourmashSignature) * Z :=
  foldl (load_step sm args moltype) (None, 0) (args_signatures args).

(** Line 91: [counts_d[hashval] += abund] on a [defaultdict(int)]. *)
Definition add_abund (d : gmap N Z) (item : N * Z) : gmap N Z :=
  let '(hashval, abund) := item in
  <[hashval := default 0 (d !! hashval) + abund]> d.

(** Lines 88-91: the aggregate abundance map of a list of signatures. *)
Definition counts_d (siglist : list SourmashSignature) : gmap N Z :=
  foldl (fun d ss => foldl add_abund d (map_to_list (hashes (minhash ss))))
        ∅ siglist.

(** Line 93. *)
Definition all_counts (d : gmap N Z) : list Z := (map_to_list d).*2.

(** Lines 95-100: the range of the histogram. *)
Definition resolve_range (values : list Z) (override_min override_max : option Z)
    : result (Z * Z) :=
  let min_range := 1 in
  let min_range :=
    match override_min with Some m => m | None => min_range end in
  max_range ← py_max values;
  let max_range :=
    match override_max with Some m => m | None => max_range end in
  mret (min_range, max_range).

(** Lines 102-104: the number of bins handed to numpy. *)
Definition n_bins (bins min_range max_range : Z) : Z :=
  let n_bins := bins in
  if max_range - min_range + 1 <? n_bins then max_range - min_range + 1
  else n_bins.

(** Lines 102-110: the counts and the edges as integers. *)
Definition build_histogram (values : list Z) (min_range max_range bins : Z)
    : result (list Z * list Z) :=
  let n_bins := n_bins bins min_range max_range in
  '(counts, bin_edges) ← numpy.histogram values (min_range, max_range) n_bins;
  let bin_edges := numpy.astype_int <$> bin_edges in
  mret (counts, bin_edges).

(** The edges the plot and the CSV file show: [bin_edges[1:]]. *)
Definition reported_edges (bin_edges : list Z) : list Z := tail bin_edges.

(** Lines 113-115. *)
Definition plot (counts bin_edges : list Z) : M unit :=
  global_name "tpl";;
  emit (barh_ev counts (str <$> reported_edges bin_edges));;
  emit show_ev.

(** [with FileOutput(path, 'wt') as fp: w = csv.writer(fp); ...]: the two
    names are looked up in that order before anything is written. *)
Definition with_csv_writer (path : string) (rows : list (list string)) : M unit :=
  global_name "FileOutput";;
  emit (open_ev path);;
  global_name "csv";;
  foldl (fun m row => m;; emit (writerow_ev path row)) (mret tt) rows;;
  emit (close_ev path).

(** Lines 121-123: the header and one row per pair of [zip]. *)
Definition histogram_rows (counts bin_edges : list Z) : list (list string) :=
  ["count"; "n_count"]%string ::
  map (fun '(nc, c) => [str c; str nc]) (zip counts (reported_edges bin_edges)).

(** Lines 129-131. *)
Definition abundance_rows (d : gmap N Z) : list (list string) :=
  ["hashval"; "count"]%string ::
  map (fun '(hashval, count) => [str (Z.of_N hashval); str count]) (map_to_list d).

(** Lines 82-131: everything after the loop, from the two variables the
    loop leaves behind. *)
Definition after_loop (args : Namespace)
    (siglist : option (list SourmashSignature)) (total_loaded : Z) : M unit :=
  notify "loaded {} total that matched ksize & molecule type" [total_loaded];;
  siglist ← local_name "siglist" siglist;
  (if negb (len siglist =? total_loaded)
   then notify "selected {} via name / md5 selectors" [len siglist]
   else mret tt);;
  notify "" [];;
  let counts_d := counts_d siglist in
  let all_counts := all_counts counts_d in
  '(min_range, max_range) ←
    lift (resolve_range all_counts (args_min args) (args_max args));
  '(counts, bin_edges) ←
    lift (build_histogram all_counts min_range max_range (args_bins args));
  plot counts bin_edges;;
  (if truthy (args_output args)
   then with_csv_writer (default ""%string (args_output args))
          (histogram_rows counts bin_edges)
   else mret tt);;
  (if truthy (args_abundances args)
   then with_csv_writer (default ""%string (args_abundances args))
          (abundance_rows counts_d)
   else mret tt).

Definition abundhist (sm : Sourmash) (args : Namespace) : M unit :=
  set_quiet (args_quiet args);;
  let moltype := calculate_moltype sm args in
  let '(siglist, total_loaded) := load_loop sm args moltype in
  after_loop args siglist total_loaded.

(** ** What the specification talks about *)

(** A computation raised. *)
Definition fails {A : Type} (r : result A) : Prop := exists e, r = raise e.



(** The signature has the hash value. *)
Definition has_hash (h : N) (ss : SourmashSignature) : Prop :=
  is_Some (hashes (minhash ss) !! h).

(** Its abundance there, 0 where the signature does not have it. *)
Definition abund_of (h : N) (ss : SourmashSignature) : Z :=
  default 0 (hashes (minhash ss) !! h).

Definition sum_Z (l : list Z) : Z := foldr Z.add 0 l.

(** The sum of [sig.hashes[h]] over the signatures of the list that have [h]. *)
Definition abund_sum (h : N) (siglist : list SourmashSignature) : Z :=
  sum_Z (abund_of h <$> filter (has_hash h) siglist).

(** The aggregate map the specification asks for: defined exactly on the
    hashes of the given signatures, with the summed abundance. *)
Definition aggregate_of (d : gmap N Z) (selected : list SourmashSignature) : Prop :=
  forall h : N,
    d !! h = if decide (Exists (has_hash h) selected)
             then Some (abund_sum h selected) else None.

(** The value lies in the range of the histogram. *)
Definition in_range (min_range max_range v : Z) : bool :=
  (min_range <=? v) && (v <=? max_range).


(** The diagnostic of an exception shows the number. *)
Definition mentions (e : exception) (x : Z) : bool :=
  match e with
  | ValueError msg => py_in (str x) msg
  | NameError name => py_in (str x) name
  | UnboundLocalError name => py_in (str x) name
  end.

(** A console message, as opposed to the plot and the files. *)
Definition is_notify (e : event) : bool :=
  match e with
  | set_quiet_ev _ | notify_ev _ _ => true
  | _ => false
  end.

(** Something was done to a file. *)
Definition is_file_event (e : event) : bool :=
  match e with
  | open_ev _ | writerow_ev _ _ | close_ev _ => true
  | _ => false
  end.

(** ** A small world to run the script in

    The two signatures of the specification's example scenario, each in a
    file of its own and both together in a third one. *)

Definition sig_A : SourmashSignature :=
  {| md5sum := "0a1f"; name := "sample A";
     minhash := {| hashes := <[1%N := 3]> (<[2%N := 5]> ∅) |} |}.

Definition sig_B : SourmashSignature :=
  {| md5sum := "7c1e"; name := "sample B";
     minhash := {| hashes := <[1%N := 2]> (<[3%N := 1]> ∅) |} |}.

Definition sm_ex : Sourmash :=
  {| calculate_moltype := fun _ => None;
     load_file_as_signatures := fun filename _ _ =>
       if String.eqb filename "a.sig" then [sig_A]
       else if String.eqb filename "b.sig" then [sig_B]
       else if String.eqb filename "ab.sig" then [sig_A; sig_B]
       else [] |}.

(** A command line with the defaults of the parser for everything but the
    positional arguments. *)
Definition args_ex (files : list string) : Namespace :=
  {| args_signatures := files; args_quiet := false; args_output := None;
     args_abundances := None; args_md5 := None; args_name := None;
     args_max := None; args_min := None; args_bins := 10; args_ksize := 31 |}.

(** [--output hist.csv --bins 5] on the file with both signatures. *)
Definition args_output_ex : Namespace :=
  {| args_signatures := ["ab.sig"]%string; args_quiet := false;
     args_output := Some "hist.csv"%string; args_abundances := None;
     args_md5 := None; args_name := None; args_max := None; args_min := None;
     args_bins := 5; args_ksize := 31 |}.

(** [--min 5 --max 3] on the same file. *)
Definition args_inverted_ex : Namespace :=
  {| args_signatures := ["ab.sig"]%string; args_quiet := false;
     args_output := None; args_abundances := None;
     args_md5 := None; args_name := None; args_max := Some 3; args_min := Some 5;
     args_bins := 10; args_ksize := 31 |}.

(** Membership in a log given as a concatenation of short lists. *)
Ltac split_elem_of H :=
  repeat first
    [ apply elem_of_app in H as [H|H]
    | apply elem_of_cons in H as [H|H]
    | apply elem_of_nil in H; contradiction
    | discriminate H ].

(** * Properties *)

(** ** Substring test *)







(** ** Selection *)



(** ** Aggregation *)

Lemma foldl_add_abund_notin (l : list (N * Z)) (d : gmap N Z) (h : N) :
  h ∉ l.*1 -> foldl add_abund d l !! h = d !! h.
Proof.
  revert d. induction l as [|[k b] l IH]; intros d Hnotin; simpl; [done|].
  rewrite fmap_cons, not_elem_of_cons in Hnotin. destruct Hnotin as [Hne Hnotin].
  rewrite IH by done. simpl in Hne. by rewrite lookup_insert_ne.
Qed.

Lemma foldl_add_abund_in (l : list (N * Z)) (d : gmap N Z) (h : N) (a : Z) :
  NoDup l.*1 -> (h, a) ∈ l ->
  foldl add_abund d l !! h = Some (default 0 (d !! h) + a).
Proof.
  revert d. induction l as [|[k b] l IH]; intros d Hnodup Hin; simpl.
  - by apply elem_of_nil in Hin.
  - rewrite fmap_cons in Hnodup. apply NoDup_cons in Hnodup as [Hk Hnodup].
    apply elem_of_cons in Hin as [[= <- <-]|Hin].
    + rewrite foldl_add_abund_notin by done. by rewrite lookup_insert_eq.
    + rewrite IH by done. rewrite lookup_insert_ne; [done|].
      intros ->. apply Hk. simpl. apply list_elem_of_fmap. by exists (h, a).
Qed.

(** One signature added to the running totals (the inner loop). *)
Lemma add_signature_lookup (d : gmap N Z) (ss : SourmashSignature) (h : N) :
  foldl add_abund d (map_to_list (hashes (minhash ss))) !! h =
  match hashes (minhash ss) !! h with
  | Some a => Some (default 0 (d !! h) + a)
  | None => d !! h
  end.
Proof.
  destruct (hashes (minhash ss) !! h) as [a|] eqn:E.
  - apply foldl_add_abund_in; [apply NoDup_fst_map_to_list|].
    by apply elem_of_map_to_list.
  - apply foldl_add_abund_notin. intros Hin.
    apply list_elem_of_fmap in Hin as ([k a] & -> & Hin).
    apply elem_of_map_to_list in Hin. simpl in E. congruence.
Qed.

Lemma abund_sum_cons (h : N) (ss : SourmashSignature)
    (siglist : list SourmashSignature) :
  abund_sum h (ss :: siglist) = abund_of h ss + abund_sum h siglist.
Proof.
  unfold abund_sum. rewrite filter_cons.
  destruct (decide (has_hash h ss)) as [Hh|Hh]; [reflexivity|].
  unfold has_hash in Hh. unfold abund_of.
  destruct (hashes (minhash ss) !! h); [exfalso; eauto | simpl; lia].
Qed.

Lemma abund_sum_none (h : N) (siglist : list SourmashSignature) :
  ~ Exists (has_hash h) siglist -> abund_sum h siglist = 0.
Proof.
  induction siglist as [|ss siglist IH]; intros Hex; [reflexivity|].
  rewrite Exists_cons in Hex. rewrite abund_sum_cons, IH by tauto.
  unfold abund_of. unfold has_hash at 1 in Hex.
  destruct (hashes (minhash ss) !! h); [exfalso; eauto | reflexivity].
Qed.

Lemma add_signatures_lookup (siglist : list SourmashSignature) (d : gmap N Z) (h : N) :
  foldl (fun d ss => foldl add_abund d (map_to_list (hashes (minhash ss))))
        d siglist !! h =
  if decide (Exists (has_hash h) siglist)
  then Some (default 0 (d !! h) + abund_sum h siglist)
  else d !! h.
Proof.
  revert d. induction siglist as [|ss siglist IH]; intros d.
  - destruct (decide _) as [Hex|_]; [by apply Exists_nil in Hex | done].
  - cbn [foldl]. rewrite IH, add_signature_lookup, abund_sum_cons.
    unfold abund_of.
    destruct (decide (Exists (has_hash h) (ss :: siglist))) as [Hex|Hex];
      destruct (decide (Exists (has_hash h) siglist)) as [Hex'|Hex'];
      rewrite Exists_cons in Hex; unfold has_hash at 1 in Hex;
      destruct (hashes (minhash ss) !! h) as [a|] eqn:E; simpl.
    + f_equal; lia.
    + f_equal; lia.
    + rewrite (abund_sum_none _ _ Hex'). f_equal; lia.
    + destruct Hex as [[? [=]]|?]; done.
    + exfalso. apply Hex. by right.
    + exfalso. apply Hex. by right.
    + exfalso. apply Hex. left. eauto.
    + done.
Qed.

(** The map built by lines 88-91 is the aggregate of the list it is built
    from: the summed abundance on the hashes the list has, nothing else. *)
Lemma counts_d_aggregate (siglist : list SourmashSignature) :
  aggregate_of (counts_d siglist) siglist.
Proof.
  intros h. unfold counts_d. rewrite add_signatures_lookup, lookup_empty. simpl.
  destruct (decide _); [f_equal; lia | done].
Qed.

(** ** The loop over the positional arguments *)

(** The files loaded so far only add to [total_loaded]; [siglist] is what
    the last iteration assigned. *)
Lemma load_loop_snoc (sm : Sourmash) (args : Namespace) (moltype : option string)
    (earlier : list string) (last : string)
    (st : option (list SourmashSignature) * Z) :
  foldl (load_step sm args moltype) st (earlier ++ [last]) =
  (Some (select (args_md5 args) (args_name args)
           (load_file_as_signatures sm last (args_ksize args) moltype)),
   st.2 + sum_Z ((fun f => len (load_file_as_signatures sm f (args_ksize args) moltype))
                   <$> earlier ++ [last])).
Proof.
  revert st. induction earlier as [|f earlier IH]; intros [sl total].
  - simpl. f_equal. lia.
  - cbn [app foldl]. rewrite IH. f_equal.
    change (((f :: earlier) ++ [last])) with (f :: (earlier ++ [last])).
    rewrite fmap_cons. unfold load_step, sum_Z. cbn [snd foldr]. lia.
Qed.



(** C1, evaluated on two files: [a.sig] holds signature A = {1:3, 2:5},
    [b.sig] holds B = {1:2, 3:1}, no selector is active.  Both signatures are
    selected, so the aggregate over all sources is {1:5, 2:5, 3:1}; the map
    the run builds is that of B alone: hash 1 has abundance 2 and hash 2 is
    missing. *)
Theorem aggregate_drops_earlier_sources :
  let args := args_ex ["a.sig"; "b.sig"]%string in
  load_loop sm_ex args None = (Some [sig_B], 2)
  /\ counts_d [sig_B] !! 1%N = Some 2
  /\ abund_sum 1%N [sig_A; sig_B] = 5
  /\ counts_d [sig_B] !! 2%N = None
  /\ abund_sum 2%N [sig_A; sig_B] = 5
  /\ ~ aggregate_of (counts_d [sig_B]) [sig_A; sig_B]
  /\ run (abundhist sm_ex args) =
     ([set_quiet_ev false;
       notify_ev "loaded {} total that matched ksize & molecule type" [2];
       notify_ev "selected {} via name / md5 selectors" [1];
       notify_ev "" [];
       barh_ev [1; 1] ["1"; "2"]%string; show_ev], inr tt).
Proof.
  repeat split; try (vm_compute; reflexivity).
  intros H. specialize (H 2%N). vm_compute in H. discriminate.
Qed.

(** ** Range resolution *)

Lemma foldl_max_spec (l : list Z) (x : Z) :
  foldl Z.max x l ∈ x :: l /\ Forall (fun y => y <= foldl Z.max x l) (x :: l).
Proof.
  revert x. induction l as [|y l IH]; intros x; simpl.
  - split; [apply list_elem_of_here|].
    constructor; [lia | constructor].
  - destruct (IH (Z.max x y)) as [Hin Hall]. split.
    + apply elem_of_cons in Hin as [Heq|Hin].
      * rewrite Heq. destruct (Z.max_spec x y) as [[_ ->]|[_ ->]].
        -- apply elem_of_cons. right. apply elem_of_cons. by left.
        -- apply elem_of_cons. by left.
      * apply elem_of_cons. right. apply elem_of_cons. by right.
    + apply Forall_cons in Hall as [Hxy Hall].
      constructor; [lia|]. constructor; [lia | exact Hall].
Qed.

(** C3, as the code has it.  Range resolution raises exactly when the list
    of aggregate values is empty, whatever the overrides are; on a non-empty
    list it returns the minimum override (1 without one) and the maximum
    override (the largest value without one). *)
Theorem resolve_range_fails_iff_empty (values : list Z)
    (override_min override_max : option Z) :
  (fails (resolve_range values override_min override_max) <-> values = [])
  /\ (values = [] ->
      resolve_range values override_min override_max =
      raise (ValueError "max() arg is an empty sequence"))
  /\ (forall min_range max_range,
      resolve_range values override_min override_max = mret (min_range, max_range) ->
      min_range = default 1 override_min /\
      match override_max with
      | Some m => max_range = m
      | None => max_range ∈ values /\ Forall (fun v => v <= max_range) values
      end).
Proof.
  unfold resolve_range, fails.
  destruct values as [|x l]; simpl.
  - split; [split; [done | eauto]|]. split; [done|]. intros ? ? [=].
  - split; [split; [intros [e [=]] | done]|]. split; [done|].
    intros mn mx [= <- <-]. split; [by destruct override_min|].
    destruct override_max; [done|]. apply foldl_max_spec.
Qed.

(** C3, as stated, at the empty list with [--max 5]: the specification has range
    resolution return (1, 5); the code raises at [max(all_counts)], which is
    evaluated before the override is looked at. *)
Lemma resolve_range_empty_with_max :
  resolve_range [] None (Some 5) = raise (ValueError "max() arg is an empty sequence")
  /\ resolve_range [] None (Some 5) <> mret (1, 5)
  /\ ~ (fails (resolve_range [] None (Some 5)) <->
        (@nil Z = [] /\ Some 5 = @None Z)).
Proof.
  split; [reflexivity|]. split; [discriminate|].
  intros [H _]. destruct H as [_ [=]]. eexists. reflexivity.
Qed.

(** ** Rationals: truncation, floor and the order *)

Lemma astype_int_floor (q : Q) : (0 <= q)%Q -> numpy.astype_int q = Qfloor q.
Proof.
  destruct q as [a b]. unfold Qle, numpy.astype_int, Qfloor. simpl. intros H.
  apply Z.quot_div_nonneg; lia.
Qed.


Lemma Qfloor_ge (q : Q) (k : Z) : (inject_Z k <= q)%Q -> k <= Qfloor q.
Proof. intros Hle. rewrite <- (Qfloor_Z k). by apply Qfloor_resp_le. Qed.

Lemma inject_Z_pos (n : Z) : 1 <= n -> (0 < inject_Z n)%Q.
Proof. intros H. change 0%Q with (inject_Z 0). rewrite <- Zlt_Qlt. lia. Qed.

Lemma inject_Z_succ (k : Z) : (inject_Z (k + 1) == inject_Z k + 1)%Q.
Proof. rewrite inject_Z_plus. reflexivity. Qed.


Lemma Qlt_bool_iff (x y : Q) : numpy.Qlt_bool x y = true <-> (x < y)%Q.
Proof.
  unfold numpy.Qlt_bool.
  rewrite negb_true_iff, <- not_true_iff_false, Qle_bool_iff.
  split; [apply Qnot_le_lt | apply Qlt_not_le].
Qed.


(** ** numpy.linspace *)


(** Edge [i] of [n] equal bins is [a + i * (b - a) / n]. *)
Lemma edge_linspace (a b : Q) (n i : Z) :
  1 <= n -> 0 <= i <= n ->
  (numpy.edge (numpy.linspace a b (Z.to_nat n + 1)) i ==
   a + inject_Z i * ((b - a) / inject_Z n))%Q.
Proof.
  intros Hn Hi. unfold numpy.edge, numpy.linspace.
  replace (Z.to_nat n + 1 - 1)%nat with (Z.to_nat n) by lia.
  set (f := fun i0 : nat => _).
  rewrite (nth_indep _ _ (f 0%nat)) by (rewrite length_map, length_seq; lia).
  rewrite map_nth, seq_nth by lia. unfold f. cbn [Nat.add].
  rewrite !Z2Nat.id by lia.
  pose proof (inject_Z_pos n Hn).
  destruct (Nat.eqb_spec (Z.to_nat i) (Z.to_nat n)) as [Heq|Hne].
  - assert (i = n) as -> by lia. field. lra.
  - reflexivity.
Qed.

Section UniformBins.
Variables (a b : Q) (n : Z).
Hypothesis Hab : (a < b)%Q.
Hypothesis Hn : 1 <= n.

Lemma step_pos : (0 < (b - a) / inject_Z n)%Q.
Proof.
  pose proof (inject_Z_pos n Hn). apply Qlt_shift_div_l; [done|]. lra.
Qed.





(** The scaled position of a value, taken back to the scale of the values. *)
Lemma scaled_position (v : Z) :
  ((inject_Z v - a) / (b - a) * inject_Z n * ((b - a) / inject_Z n) ==
   inject_Z v - a)%Q.
Proof. pose proof (inject_Z_pos n Hn). field. split; lra. Qed.

Lemma scaled_position_range (v : Z) :
  (a <= inject_Z v)%Q -> (inject_Z v <= b)%Q ->
  (0 <= (inject_Z v - a) / (b - a) * inject_Z n)%Q /\
  ((inject_Z v - a) / (b - a) * inject_Z n <= inject_Z n)%Q.
Proof.
  intros Hlo Hhi. pose proof (inject_Z_pos n Hn) as Hpos.
  pose proof (scaled_position v) as Hf. pose proof step_pos as Hs.
  set (f := ((inject_Z v - a) / (b - a) * inject_Z n)%Q) in *.
  set (s := ((b - a) / inject_Z n)%Q) in *.
  assert (inject_Z n * s == b - a)%Q as Hns by (unfold s; field; lra).
  split.
  - destruct (Qlt_le_dec f 0) as [Hneg|]; [|done]. exfalso. nra.
  - destruct (Qlt_le_dec (inject_Z n) f) as [Hbig|]; [|done]. exfalso. nra.
Qed.

(** The bin of a kept value is one of the [n] bins, and the value lies
    between the edges of that bin; the two corrections of the index never
    fire on exact edges. *)
Lemma bin_index_spec (v : Z) :
  (a <= inject_Z v)%Q -> (inject_Z v <= b)%Q ->
  let bin_edges := numpy.linspace a b (Z.to_nat n + 1) in
  let i := numpy.bin_index bin_edges a b n v in
  0 <= i < n /\
  (numpy.edge bin_edges i <= inject_Z v)%Q /\
  (if i =? n - 1 then (inject_Z v <= numpy.edge bin_edges (i + 1))%Q
   else (inject_Z v < numpy.edge bin_edges (i + 1))%Q).
Proof.
  intros Hlo Hhi bin_edges. unfold numpy.bin_index. cbv zeta.
  pose proof (inject_Z_pos n Hn) as Hpos.
  pose proof (scaled_position v) as Hf. pose proof step_pos as Hs.
  destruct (scaled_position_range v Hlo Hhi) as [Hf0 Hfn].
  set (f := ((inject_Z v - a) / (b - a) * inject_Z n)%Q) in *.
  set (s := ((b - a) / inject_Z n)%Q) in *.
  rewrite (astype_int_floor f Hf0).
  pose proof (Qfloor_le f) as Hk1. pose proof (Qlt_floor f) as Hk2.
  assert (0 <= Qfloor f <= n) as Hk.
  { split; [by apply Qfloor_ge|]. rewrite <- (Qfloor_Z n). by apply Qfloor_resp_le. }
  set (k := Qfloor f) in *.
  rewrite inject_Z_succ in Hk2.
  set (k1 := if k =? n then k - 1 else k).
  assert (0 <= k1 < n /\ k1 <= k) as [Hk1r Hk1k].
  { unfold k1. destruct (Z.eqb_spec k n); lia. }
  assert (inject_Z k1 <= inject_Z k)%Q as Hk1q by (by rewrite <- Zle_Qle).
  assert (numpy.Qlt_bool (inject_Z v) (numpy.edge bin_edges k1) = false) as ->.
  { apply not_true_iff_false. rewrite Qlt_bool_iff. unfold bin_edges.
    rewrite edge_linspace by lia. fold s. apply Qle_not_lt. nra. }
  assert (Qle_bool (numpy.edge bin_edges (k1 + 1)) (inject_Z v)
          && negb (k1 =? n - 1) = false) as ->.
  { unfold k1. destruct (Z.eqb_spec k n) as [->|Hne].
    - rewrite Z.eqb_refl. apply andb_false_r.
    - apply andb_false_intro1. apply not_true_iff_false. rewrite Qle_bool_iff.
      unfold bin_edges. rewrite edge_linspace by lia. fold s.
      rewrite inject_Z_succ. apply Qlt_not_le. nra. }
  split; [done|]. split.
  - unfold bin_edges. rewrite edge_linspace by lia. fold s. nra.
  - unfold bin_edges, k1 in *. destruct (Z.eqb_spec k n) as [Hkn|Hne].
    + replace (k - 1 =? n - 1) with true by (symmetry; apply Z.eqb_eq; lia).
      replace (k - 1 + 1) with n by lia.
      assert (inject_Z n * s == b - a)%Q as Hns by (unfold s; field; lra).
      rewrite edge_linspace by lia. fold s. nra.
    + destruct (k =? n - 1); rewrite edge_linspace by lia; fold s;
        rewrite inject_Z_succ; nra.
Qed.

End UniformBins.

(** ** numpy.histogram *)

(** For a range that is not inverted the outer edges are in order, and the
    values kept between them are the values of the range (a range of one
    value is widened by a half on each side, which keeps that value only). *)
Lemma outer_edges_ok (min_range max_range : Z) :
  min_range <= max_range ->
  exists a b : Q,
    numpy.outer_edges (min_range, max_range) = mret (a, b) /\ (a < b)%Q /\
    (forall v : Z,
        Qle_bool a (inject_Z v) && Qle_bool (inject_Z v) b =
        in_range min_range max_range v) /\
    (min_range < max_range -> a = inject_Z min_range /\ b = inject_Z max_range).
Proof.
  intros Hle. unfold numpy.outer_edges.
  destruct (Z.ltb_spec max_range min_range) as [?|_]; [lia|].
  destruct (Z.eqb_spec min_range max_range) as [<-|Hne];
    eexists _, _; (split; [reflexivity|]).
  - split; [unfold Qlt; simpl; lia|]. split; [|lia].
    intros v. apply eq_true_iff_eq. unfold in_range.
    rewrite !andb_true_iff, !Qle_bool_iff, !Z.leb_le.
    unfold Qle; simpl. lia.
  - split; [rewrite <- Zlt_Qlt; lia|]. split; [|done].
    intros v. apply eq_true_iff_eq. unfold in_range.
    rewrite !andb_true_iff, !Qle_bool_iff, !Z.leb_le, <- !Zle_Qle. reflexivity.
Qed.


(** What [histogram] returns on a range in order and a positive number of
    bins: the values of the range binned between the [n + 1] edges. *)
Lemma histogram_unfold (values : list Z) (min_range max_range n : Z) :
  min_range <= max_range -> 1 <= n ->
  exists a b : Q,
    numpy.outer_edges (min_range, max_range) = mret (a, b) /\
    (a < b)%Q /\
    (min_range < max_range -> a = inject_Z min_range /\ b = inject_Z max_range) /\
    (forall v, in_range min_range max_range v = true <->
               (a <= inject_Z v)%Q /\ (inject_Z v <= b)%Q) /\
    numpy.histogram values (min_range, max_range) n =
    mret (numpy.bincount
            (map (numpy.bin_index (numpy.linspace a b (Z.to_nat n + 1)) a b n)
                 (filter (in_range min_range max_range) values)) n,
          numpy.linspace a b (Z.to_nat n + 1)).
Proof.
  intros Hle Hn.
  destruct (outer_edges_ok min_range max_range Hle) as (a & b & Hedges & Hab & Hkeep & Hstrict).
  exists a, b. split; [done|]. split; [done|]. split; [done|]. split.
  - intros v. rewrite <- Hkeep, andb_true_iff, !Qle_bool_iff. reflexivity.
  - unfold numpy.histogram.
    destruct (Z.ltb_spec n 1) as [?|_]; [lia|]. rewrite Hedges. simpl.
    do 4 f_equal. apply list_filter_iff. intros v. by rewrite Hkeep.
Qed.

Lemma sum_Z_indicator (i : Z) (start len_ : nat) :
  sum_Z (map (fun b => if i =? Z.of_nat b then 1 else 0) (seq start len_)) =
  if (Z.of_nat start <=? i) && (i <? Z.of_nat (start + len_)) then 1 else 0.
Proof.
  revert start. induction len_ as [|len_ IH]; intros start; cbn [seq map sum_Z foldr].
  - destruct (Z.leb_spec (Z.of_nat start) i), (Z.ltb_spec i (Z.of_nat (start + 0)));
      simpl; lia.
  - fold (sum_Z (map (fun b => if i =? Z.of_nat b then 1 else 0) (seq (S start) len_))).
    rewrite IH.
    destruct (Z.eqb_spec i (Z.of_nat start)),
      (Z.leb_spec (Z.of_nat (S start)) i), (Z.ltb_spec i (Z.of_nat (S start + len_))),
      (Z.leb_spec (Z.of_nat start) i), (Z.ltb_spec i (Z.of_nat (start + S len_)));
      simpl; lia.
Qed.

Lemma sum_Z_map_add {A : Type} (f g : A -> Z) (l : list A) :
  sum_Z (map (fun x => f x + g x) l) = sum_Z (map f l) + sum_Z (map g l).
Proof. induction l as [|x l IH]; simpl; [reflexivity|]. unfold sum_Z in *. lia. Qed.

Lemma sum_Z_map_zero {A : Type} (l : list A) : sum_Z (map (fun _ => 0) l) = 0.
Proof. induction l as [|x l IH]; simpl; [reflexivity|]. unfold sum_Z in *. lia. Qed.

(** Every index within [0, n) is counted once. *)
Lemma sum_bincount (indices : list Z) (n : Z) :
  Forall (fun i => 0 <= i < n) indices ->
  sum_Z (numpy.bincount indices n) = len indices.
Proof.
  unfold numpy.bincount. induction 1 as [|i indices Hi _ IH].
  - apply sum_Z_map_zero.
  - erewrite map_ext.
    2:{ intros b. rewrite filter_cons.
        instantiate (1 := fun b => (if i =? Z.of_nat b then 1 else 0)
                           + len (filter (fun j => j =? Z.of_nat b) indices)).
        cbv beta. destruct (decide (Is_true (i =? Z.of_nat b))) as [Hb|Hb];
          destruct (Z.eqb_spec i (Z.of_nat b)); try done; unfold len; simpl; lia. }
    rewrite sum_Z_map_add, IH, sum_Z_indicator.
    replace (Z.of_nat (0 + Z.to_nat n)) with n by lia.
    destruct (Z.leb_spec (Z.of_nat 0) i), (Z.ltb_spec i n); unfold len; simpl; lia.
Qed.


(** ** Histogram construction *)

Lemma n_bins_min (bins min_range max_range : Z) :
  n_bins bins min_range max_range = Z.min bins (max_range - min_range + 1).
Proof.
  unfold n_bins. destruct (Z.ltb_spec (max_range - min_range + 1) bins); lia.
Qed.

(** What lines 102-110 return on a range in order and a positive request. *)
Lemma build_histogram_unfold (values : list Z) (min_range max_range bins : Z) :
  min_range <= max_range -> 1 <= bins ->
  let n := n_bins bins min_range max_range in
  exists a b : Q,
    numpy.outer_edges (min_range, max_range) = mret (a, b) /\
    1 <= n /\ (a < b)%Q /\
    (min_range < max_range -> a = inject_Z min_range /\ b = inject_Z max_range) /\
    (forall v, in_range min_range max_range v = true <->
               (a <= inject_Z v)%Q /\ (inject_Z v <= b)%Q) /\
    numpy.histogram values (min_range, max_range) n =
    mret (numpy.bincount
            (map (numpy.bin_index (numpy.linspace a b (Z.to_nat n + 1)) a b n)
                 (filter (in_range min_range max_range) values)) n,
          numpy.linspace a b (Z.to_nat n + 1)) /\
    build_histogram values min_range max_range bins =
    mret (numpy.bincount
            (map (numpy.bin_index (numpy.linspace a b (Z.to_nat n + 1)) a b n)
                 (filter (in_range min_range max_range) values)) n,
          numpy.astype_int <$> numpy.linspace a b (Z.to_nat n + 1)).
Proof.
  intros Hle Hbins n.
  assert (1 <= n) as Hn by (unfold n; rewrite n_bins_min; lia).
  destruct (histogram_unfold values min_range max_range n Hle Hn)
    as (a & b & Hedges & Hab & Hstrict & Hkeep & Hhist).
  exists a, b. repeat (split; [done|]).
  unfold build_histogram. fold n. rewrite Hhist. reflexivity.
Qed.

Lemma bin_indices_in_range (values : list Z) (min_range max_range : Z)
    (a b : Q) (n : Z) :
  (a < b)%Q -> 1 <= n ->
  (forall v, in_range min_range max_range v = true <->
             (a <= inject_Z v)%Q /\ (inject_Z v <= b)%Q) ->
  Forall (fun i => 0 <= i < n)
    (map (numpy.bin_index (numpy.linspace a b (Z.to_nat n + 1)) a b n)
         (filter (in_range min_range max_range) values)).
Proof.
  intros Hab Hn Hkeep. apply Forall_forall. intros i Hin.
  apply list_elem_of_In, in_map_iff in Hin as (v & <- & Hv).
  apply list_elem_of_In, list_elem_of_filter in Hv as [Hv _].
  apply Is_true_true, Hkeep in Hv as [Hlo Hhi].
  apply (bin_index_spec a b n Hab Hn v Hlo Hhi).
Qed.







(** ** The reported edges *)







(** ** Degenerate requests *)

Lemma build_histogram_degenerate (values : list Z) (min_range max_range bins : Z) :
  bins <= 0 \/ max_range < min_range ->
  build_histogram values min_range max_range bins =
  raise (ValueError "`bins` must be positive, when an integer").
Proof.
  intros Hdeg. unfold build_histogram, numpy.histogram.
  rewrite n_bins_min.
  destruct (Z.ltb_spec (Z.min bins (max_range - min_range + 1)) 1); [reflexivity|lia].
Qed.

(** The run up to the histogram, when the range is resolved: the console
    messages, then whatever the histogram construction raises. *)
Lemma after_loop_histogram_raises (args : Namespace)
    (siglist : list SourmashSignature) (total_loaded min_range max_range : Z)
    (e : exception) :
  resolve_range (all_counts (counts_d siglist)) (args_min args) (args_max args) =
    mret (min_range, max_range) ->
  build_histogram (all_counts (counts_d siglist)) min_range max_range (args_bins args) =
    raise e ->
  exists log,
    run (after_loop args (Some siglist) total_loaded) = (log, raise e)
    /\ forallb is_notify log = true.
Proof.
  intros Hrange Hhist. unfold run, after_loop.
  destruct (negb (len siglist =? total_loaded)) eqn:Hsel.
  - eexists. split.
    + cbv [mbind M_bind notify global_name emit lift local_name mret M_ret].
      cbn [existsb module_globals builtins app String.eqb Ascii.eqb Bool.eqb orb].
      rewrite Hsel. cbn. rewrite Hrange. cbn. rewrite Hhist. reflexivity.
    + reflexivity.
  - eexists. split.
    + cbv [mbind M_bind notify global_name emit lift local_name mret M_ret].
      cbn [existsb module_globals builtins app String.eqb Ascii.eqb Bool.eqb orb].
      rewrite Hsel. cbn. rewrite Hrange. cbn. rewrite Hhist. reflexivity.
    + reflexivity.
Qed.

(** C8, as the code has it.  A request of no bins or an inverted range
    makes the clamped bin count non-positive, and numpy refuses it with its
    [ValueError] about the bin count, whatever the values are; in a run this
    happens after the console messages and before the plot and the files. *)
Theorem degenerate_histogram_fails (args : Namespace)
    (siglist : list SourmashSignature) (total_loaded min_range max_range : Z) :
  args_bins args <= 0 \/ max_range < min_range ->
  (forall values,
      build_histogram values min_range max_range (args_bins args) =
      raise (ValueError "`bins` must be positive, when an integer"))
  /\ (resolve_range (all_counts (counts_d siglist)) (args_min args) (args_max args) =
        mret (min_range, max_range) ->
      exists log,
        run (after_loop args (Some siglist) total_loaded) =
          (log, raise (ValueError "`bins` must be positive, when an integer"))
        /\ forallb is_notify log = true).
Proof.
  intros Hdeg. split.
  - intros values. by apply build_histogram_degenerate.
  - intros Hrange. eapply after_loop_histogram_raises; [exact Hrange|].
    by apply build_histogram_degenerate.
Qed.

Lemma degenerate_histogram_fails_witness :
  (args_bins args_inverted_ex <= 0 \/ 3 < 5)
  /\ build_histogram [5; 5; 1] 5 3 (args_bins args_inverted_ex) =
     raise (ValueError "`bins` must be positive, when an integer").
Proof.
  split; [right; lia|].
  apply (degenerate_histogram_fails args_inverted_ex [sig_A; sig_B] 2 5 3).
  right. lia.
Defined.

(** C8, as stated, on [--min 5 --max 3] with the default ten bins: the
    error that comes out is numpy's complaint about the bin count (the
    clamped count is -1), and its text shows none of 5, 3, 10 and -1. *)
Lemma degenerate_error_shows_no_value :
  exists e,
    build_histogram [5; 5; 1] 5 3 10 = raise e
    /\ snd (run (abundhist sm_ex args_inverted_ex)) = raise e
    /\ e = ValueError "`bins` must be positive, when an integer"
    /\ mentions e 5 = false /\ mentions e 3 = false
    /\ mentions e 10 = false /\ mentions e (-1) = false.
Proof. eexists. repeat split; vm_compute; reflexivity. Qed.

(** ** The CSV file of the histogram *)

(** The rows lines 121-123 hand to the writer: the header, then for each
    bin in order its upper edge and its count. *)
Lemma histogram_rows_spec (counts bin_edges : list Z) :
  histogram_rows counts bin_edges =
  ["count"; "n_count"]%string ::
  zip_with (fun nc c => [str c; str nc]) counts (reported_edges bin_edges).
Proof.
  unfold histogram_rows. f_equal.
  generalize (reported_edges bin_edges) as edges.
  induction counts as [|nc counts IH]; intros [|c edges]; simpl; try done.
  by rewrite IH.
Qed.

(** With [--output] given and the histogram built, the run stops at line
    119: [FileOutput] is not a name of the module, so nothing is opened and
    no row is written. *)
Lemma output_raises_name_error (args : Namespace)
    (siglist : list SourmashSignature)
    (total_loaded min_range max_range : Z) (counts bin_edges : list Z) :
  resolve_range (all_counts (counts_d siglist)) (args_min args) (args_max args) =
    mret (min_range, max_range) ->
  build_histogram (all_counts (counts_d siglist)) min_range max_range (args_bins args) =
    mret (counts, bin_edges) ->
  truthy (args_output args) = true ->
  exists log,
    run (after_loop args (Some siglist) total_loaded) =
      (log, raise (NameError "FileOutput"))
    /\ existsb is_file_event log = false.
Proof.
  intros Hrange Hhist Hout. unfold run, after_loop.
  destruct (negb (len siglist =? total_loaded)) eqn:Hsel.
  - eexists. split.
    + cbv [mbind M_bind notify global_name emit lift local_name mret M_ret plot
           with_csv_writer].
      cbn [existsb module_globals builtins app String.eqb Ascii.eqb Bool.eqb orb].
      rewrite Hsel. cbn. rewrite Hrange. cbn. rewrite Hhist. cbn.
      rewrite Hout. reflexivity.
    + reflexivity.
  - eexists. split.
    + cbv [mbind M_bind notify global_name emit lift local_name mret M_ret plot
           with_csv_writer].
      cbn [existsb module_globals builtins app String.eqb Ascii.eqb Bool.eqb orb].
      rewrite Hsel. cbn. rewrite Hrange. cbn. rewrite Hhist. cbn.
      rewrite Hout. reflexivity.
    + reflexivity.
Qed.

(** C10, evaluated on [--output hist.csv --bins 5] over the two signatures of
    the example: the histogram is built and plotted (counts 1, 0, 0, 0, 2
    under the edges 1 to 5), then the run raises [NameError] for
    [FileOutput]; no file is opened and no row is written.  The rows the
    code was about to write are the ones the specification describes. *)
Theorem output_file_is_never_written :
  run (abundhist sm_ex args_output_ex) =
    ([set_quiet_ev false;
      notify_ev "loaded {} total that matched ksize & molecule type" [2];
      notify_ev "" [];
      barh_ev [1; 0; 0; 0; 2] ["1"; "2"; "3"; "4"; "5"]%string; show_ev],
     raise (NameError "FileOutput"))
  /\ existsb is_file_event (fst (run (abundhist sm_ex args_output_ex))) = false
  /\ build_histogram (all_counts (counts_d [sig_A; sig_B])) 1 5 5 =
     mret ([1; 0; 0; 0; 2], [1; 1; 2; 3; 4; 5])
  /\ histogram_rows [1; 0; 0; 0; 2] [1; 1; 2; 3; 4; 5] =
     [["count"; "n_count"]; ["1"; "1"]; ["2"; "0"]; ["3"; "0"]; ["4"; "0"];
      ["5"; "2"]]%string.
Proof. repeat split; vm_compute; reflexivity. Qed.

(** * Further properties of the code *)

(** ** Aggregation: order, concatenation, conservation *)

Lemma sum_Z_Permutation (l1 l2 : list Z) : l1 ≡ₚ l2 -> sum_Z l1 = sum_Z l2.
Proof.
  induction 1 as [|x l1 l2 _ IH|x y l|l1 l2 l3 _ IH1 _ IH2];
    unfold sum_Z in *; simpl; lia.
Qed.

Lemma sum_Z_app (l1 l2 : list Z) : sum_Z (l1 ++ l2) = sum_Z l1 + sum_Z l2.
Proof. induction l1 as [|x l1 IH]; unfold sum_Z in *; simpl; lia. Qed.

Lemma abund_sum_app (h : N) (l1 l2 : list SourmashSignature) :
  abund_sum h (l1 ++ l2) = abund_sum h l1 + abund_sum h l2.
Proof.
  induction l1 as [|ss l1 IH]; [reflexivity|].
  change ((ss :: l1) ++ l2) with (ss :: (l1 ++ l2)).
  rewrite !abund_sum_cons, IH. lia.
Qed.

Lemma abund_sum_Permutation (h : N) (l1 l2 : list SourmashSignature) :
  l1 ≡ₚ l2 -> abund_sum h l1 = abund_sum h l2.
Proof.
  induction 1 as [|x l1 l2 _ IH|x y l|l1 l2 l3 _ IH1 _ IH2];
    rewrite ?abund_sum_cons; lia.
Qed.

(** The signatures can be processed in any order: the map is the same. *)
Theorem counts_d_order_independent (siglist siglist' : list SourmashSignature) :
  siglist ≡ₚ siglist' -> counts_d siglist = counts_d siglist'.
Proof.
  intros Hperm. apply map_eq. intros h.
  rewrite (counts_d_aggregate siglist h), (counts_d_aggregate siglist' h).
  rewrite (abund_sum_Permutation h _ _ Hperm).
  destruct (decide (Exists (has_hash h) siglist)) as [Hex|Hex];
    destruct (decide (Exists (has_hash h) siglist')) as [Hex'|Hex']; try done.
  - exfalso. apply Hex'. apply Exists_exists in Hex as (ss & Hin & Hh).
    apply Exists_exists. exists ss. by rewrite <- Hperm.
  - exfalso. apply Hex. apply Exists_exists in Hex' as (ss & Hin & Hh).
    apply Exists_exists. exists ss. by rewrite Hperm.
Qed.

Lemma counts_d_order_independent_witness :
  [sig_A; sig_B] ≡ₚ [sig_B; sig_A] /\ counts_d [sig_A; sig_B] = counts_d [sig_B; sig_A].
Proof.
  split; [apply Permutation_swap|].
  apply (counts_d_order_independent [sig_A; sig_B] [sig_B; sig_A]).
  apply Permutation_swap.
Defined.

(** The map of two lists put together is the entrywise sum of their maps. *)
Theorem counts_d_app (l1 l2 : list SourmashSignature) :
  counts_d (l1 ++ l2) =
  union_with (fun x y => Some (x + y)) (counts_d l1) (counts_d l2).
Proof.
  apply map_eq. intros h. rewrite lookup_union_with.
  rewrite (counts_d_aggregate (l1 ++ l2) h), (counts_d_aggregate l1 h),
    (counts_d_aggregate l2 h), abund_sum_app.
  destruct (decide (Exists (has_hash h) (l1 ++ l2))) as [Hex|Hex];
    destruct (decide (Exists (has_hash h) l1)) as [Hex1|Hex1];
    destruct (decide (Exists (has_hash h) l2)) as [Hex2|Hex2];
    rewrite Exists_app in Hex; simpl; try tauto.
  - by rewrite (abund_sum_none h l2 Hex2), Z.add_0_r.
  - by rewrite (abund_sum_none h l1 Hex1).
Qed.

(** The values of a map after one [counts_d[hashval] += abund]. *)
Lemma add_abund_total (d : gmap N Z) (hashval : N) (abund : Z) :
  sum_Z (all_counts (add_abund d (hashval, abund))) = sum_Z (all_counts d) + abund.
Proof.
  unfold all_counts, add_abund.
  destruct (d !! hashval) as [x|] eqn:E; simpl.
  - rewrite <- insert_delete_eq.
    rewrite (sum_Z_Permutation _ ((hashval, x + abund) :: map_to_list (delete hashval d)).*2).
    2:{ apply fmap_Permutation, map_to_list_insert, lookup_delete_eq. }
    rewrite (sum_Z_Permutation (map_to_list d).*2
               ((hashval, x) :: map_to_list (delete hashval d)).*2).
    2:{ apply fmap_Permutation. symmetry. by apply map_to_list_delete. }
    rewrite !fmap_cons. unfold sum_Z. simpl. lia.
  - rewrite (sum_Z_Permutation _ ((hashval, 0 + abund) :: map_to_list d).*2).
    2:{ apply fmap_Permutation. by apply map_to_list_insert. }
    rewrite fmap_cons. unfold sum_Z. simpl. lia.
Qed.

Lemma foldl_add_abund_total (l : list (N * Z)) (d : gmap N Z) :
  sum_Z (all_counts (foldl add_abund d l)) = sum_Z (all_counts d) + sum_Z l.*2.
Proof.
  revert d. induction l as [|[h a] l IH]; intros d; cbn [foldl].
  - unfold sum_Z. simpl. lia.
  - rewrite IH, add_abund_total, fmap_cons. unfold sum_Z. cbn [foldr snd]. lia.
Qed.

Lemma add_signatures_total (siglist : list SourmashSignature) (d : gmap N Z) :
  sum_Z (all_counts
           (foldl (fun d ss => foldl add_abund d (map_to_list (hashes (minhash ss))))
                  d siglist)) =
  sum_Z (all_counts d) +
  sum_Z ((fun ss => sum_Z (all_counts (hashes (minhash ss)))) <$> siglist).
Proof.
  revert d. induction siglist as [|ss siglist IH]; intros d; cbn [foldl].
  - unfold sum_Z. simpl. lia.
  - rewrite IH, foldl_add_abund_total, fmap_cons.
    unfold all_counts, sum_Z. cbn [foldr]. lia.
Qed.

(** Nothing is lost and nothing is counted twice: the aggregate values add
    up to the abundances of all the signatures. *)
Theorem counts_d_conservation (siglist : list SourmashSignature) :
  sum_Z (all_counts (counts_d siglist)) =
  sum_Z ((fun ss => sum_Z (all_counts (hashes (minhash ss)))) <$> siglist).
Proof.
  unfold counts_d. rewrite add_signatures_total.
  unfold all_counts at 1. rewrite map_to_list_empty. unfold sum_Z. simpl. lia.
Qed.

Lemma all_counts_empty_iff (siglist : list SourmashSignature) :
  all_counts (counts_d siglist) = [] <->
  Forall (fun ss => hashes (minhash ss) = ∅) siglist.
Proof.
  unfold all_counts.
  assert ((map_to_list (counts_d siglist)).*2 = [] <-> counts_d siglist = ∅) as ->.
  { rewrite <- map_to_list_empty_iff.
    split; [apply fmap_nil_inv | intros ->; reflexivity]. }
  rewrite map_empty, Forall_forall. split.
  - intros Hnone ss Hin. apply map_empty. intros h.
    specialize (Hnone h). rewrite (counts_d_aggregate siglist h) in Hnone.
    destruct (decide (Exists (has_hash h) siglist)) as [_|Hex]; [done|].
    destruct (hashes (minhash ss) !! h) eqn:E; [|done].
    exfalso. apply Hex, Exists_exists. exists ss. split; [done|].
    unfold has_hash. rewrite E. eauto.
  - intros Hall h. rewrite (counts_d_aggregate siglist h).
    destruct (decide (Exists (has_hash h) siglist)) as [Hex|_]; [|done].
    apply Exists_exists in Hex as (ss & Hin & Hh).
    unfold has_hash in Hh. rewrite (Hall ss Hin), lookup_empty in Hh.
    by destruct Hh.
Qed.

(** There is no aggregate value exactly when no signature of the list has a
    hash; an empty list is one such case. *)
Theorem counts_d_empty_iff (siglist : list SourmashSignature) :
  (all_counts (counts_d siglist) = [] <->
   Forall (fun ss => hashes (minhash ss) = ∅) siglist)
  /\ counts_d [] = ∅.
Proof. split; [apply all_counts_empty_iff | reflexivity]. Qed.

(** ** The run as a whole *)

(** Lines 82-131 from any log: the console messages, then the first thing
    that raises, if anything does. *)
Lemma after_loop_from (args : Namespace) (siglist : list SourmashSignature)
    (total_loaded : Z) (log : list event) :
  after_loop args (Some siglist) total_loaded log =
  let console :=
    log ++
    [notify_ev "loaded {} total that matched ksize & molecule type" [total_loaded]] ++
    (if negb (len siglist =? total_loaded)
     then [notify_ev "selected {} via name / md5 selectors" [len siglist]]
     else []) ++
    [notify_ev "" []] in
  match resolve_range (all_counts (counts_d siglist)) (args_min args) (args_max args) with
  | inl e => (console, inl e)
  | inr (min_range, max_range) =>
    match build_histogram (all_counts (counts_d siglist)) min_range max_range
            (args_bins args) with
    | inl e => (console, inl e)
    | inr (counts, bin_edges) =>
      (console ++ [barh_ev counts (str <$> reported_edges bin_edges); show_ev],
       if truthy (args_output args) || truthy (args_abundances args)
       then raise (NameError "FileOutput") else mret tt)
    end
  end.
Proof.
  unfold after_loop.
  cbv [mbind M_bind notify global_name emit lift local_name mret M_ret plot
       with_csv_writer].
  cbn [existsb module_globals builtins app String.eqb Ascii.eqb Bool.eqb orb].
  destruct (negb (len siglist =? total_loaded));
    destruct (resolve_range _ _ _) as [e|[min_range max_range]];
    cbn; rewrite <- ?app_assoc; try reflexivity;
    destruct (build_histogram _ _ _ _) as [e|[counts bin_edges]];
    cbn; rewrite <- ?app_assoc; try reflexivity;
    destruct (truthy (args_output args)), (truthy (args_abundances args));
    cbn; rewrite <- ?app_assoc; reflexivity.
Qed.

Lemma after_loop_unbound (args : Namespace) (total_loaded : Z) (log : list event) :
  after_loop args None total_loaded log =
  (log ++ [notify_ev "loaded {} total that matched ksize & molecule type" [total_loaded]],
   raise (UnboundLocalError "siglist")).
Proof. reflexivity. Qed.

Lemma abundhist_run (sm : Sourmash) (args : Namespace) :
  run (abundhist sm args) =
  after_loop args (load_loop sm args (calculate_moltype sm args)).1
    (load_loop sm args (calculate_moltype sm args)).2
    [set_quiet_ev (args_quiet args)].
Proof.
  unfold run, abundhist.
  destruct (load_loop sm args (calculate_moltype sm args)) as [siglist total_loaded].
  reflexivity.
Qed.

Lemma load_loop_nil (sm : Sourmash) (args : Namespace) (moltype : option string) :
  args_signatures args = [] -> load_loop sm args moltype = (None, 0).
Proof. unfold load_loop. intros ->. reflexivity. Qed.

(** Called with no positional argument (the parser of [main] asks for at
    least one), the function announces 0 loaded signatures and stops at line
    84 on the variable the loop never assigned. *)
Theorem abundhist_no_files (sm : Sourmash) (args : Namespace) :
  args_signatures args = [] ->
  run (abundhist sm args) =
  ([set_quiet_ev (args_quiet args);
    notify_ev "loaded {} total that matched ksize & molecule type" [0]],
   raise (UnboundLocalError "siglist")).
Proof.
  intros Hnil. rewrite abundhist_run, (load_loop_nil sm args _ Hnil).
  apply after_loop_unbound.
Qed.

Lemma abundhist_no_files_witness :
  args_signatures (args_ex []) = [] /\
  run (abundhist sm_ex (args_ex [])) =
  ([set_quiet_ev false;
    notify_ev "loaded {} total that matched ksize & molecule type" [0]],
   raise (UnboundLocalError "siglist")).
Proof. split; [reflexivity|]. apply (abundhist_no_files sm_ex (args_ex [])). reflexivity. Defined.

Lemma existsb_file_event_app (l1 l2 : list event) :
  existsb is_file_event (l1 ++ l2) =
  existsb is_file_event l1 || existsb is_file_event l2.
Proof. apply existsb_app. Qed.

(** Whatever the arguments and whatever the files hold, a run opens no file
    and writes no row: both output options end in the missing name. *)
Theorem abundhist_never_writes (sm : Sourmash) (args : Namespace) :
  existsb is_file_event (run (abundhist sm args)).1 = false.
Proof.
  rewrite abundhist_run.
  destruct (load_loop sm args (calculate_moltype sm args)) as [[siglist|] total_loaded];
    cbn [fst snd]; [|reflexivity].
  rewrite after_loop_from. cbv zeta.
  destruct (negb (len siglist =? total_loaded));
    destruct (resolve_range _ _ _) as [e|[min_range max_range]]; try reflexivity;
    destruct (build_histogram _ _ _ _) as [e|[counts bin_edges]]; reflexivity.
Qed.

(** The only way range resolution raises. *)
Lemma resolve_range_error (values : list Z) (override_min override_max : option Z)
    (e : exception) :
  resolve_range values override_min override_max = raise e ->
  e = ValueError "max() arg is an empty sequence" /\ values = [].
Proof.
  unfold resolve_range. destruct values; simpl; [|discriminate].
  intros [= <-]. done.
Qed.

Lemma build_histogram_cases (values : list Z) (min_range max_range bins : Z) :
  ((exists r, build_histogram values min_range max_range bins = mret r) <->
   1 <= bins /\ min_range <= max_range)
  /\ (forall e, build_histogram values min_range max_range bins = raise e ->
        e = ValueError "`bins` must be positive, when an integer").
Proof.
  destruct (Z_le_gt_dec 1 bins) as [Hbins|Hbins];
    [destruct (Z_le_gt_dec min_range max_range) as [Hle|Hgt]|].
  - destruct (build_histogram_unfold values min_range max_range bins Hle Hbins)
      as (a & b & _ & _ & _ & _ & _ & _ & Hbuild).
    rewrite Hbuild. split; [split; [done | eauto]|]. intros e [=].
  - rewrite build_histogram_degenerate by lia.
    split; [split; [intros [r [=]] | lia]|]. intros e [= <-]. done.
  - rewrite build_histogram_degenerate by lia.
    split; [split; [intros [r [=]] | lia]|]. intros e [= <-]. done.
Qed.







(** ** More on the histogram *)



Lemma sum_Z_nonneg (l : list Z) : Forall (fun c => 0 <= c) l -> 0 <= sum_Z l.
Proof. induction 1 as [|c l Hc _ IH]; unfold sum_Z in *; simpl; lia. Qed.

Lemma length_filter_le {A : Type} (P : A -> Prop) `{!forall x, Decision (P x)}
    (l : list A) :
  (length (filter P l) <= length l)%nat.
Proof.
  induction l as [|x l IH]; [done|]. rewrite filter_cons.
  destruct (decide (P x)); simpl; lia.
Qed.


(** The sum of the counts of a histogram that was built. *)
Lemma build_histogram_sum (values : list Z) (min_range max_range bins : Z)
    (counts bin_edges : list Z) :
  build_histogram values min_range max_range bins = mret (counts, bin_edges) ->
  Forall (fun c => 0 <= c) counts
  /\ sum_Z counts = len (filter (in_range min_range max_range) values).
Proof.
  intros Hbuild.
  destruct (proj1 (proj1 (build_histogram_cases values min_range max_range bins))
              (ex_intro _ _ Hbuild)) as [Hbins Hle].
  destruct (build_histogram_unfold values min_range max_range bins Hle Hbins)
    as (a & b & _ & Hn & Hab & _ & Hkeep & _ & Hbuild').
  rewrite Hbuild' in Hbuild. injection Hbuild as <- _. split.
  - unfold numpy.bincount. apply Forall_forall. intros c Hc.
    apply list_elem_of_In, in_map_iff in Hc as (k & <- & _). unfold len. lia.
  - rewrite sum_bincount by (by eapply bin_indices_in_range).
    unfold len. by rewrite length_map.
Qed.

(** No count is negative, and together the bins never hold more than the
    values that were given. *)
Theorem histogram_counts_bounded (values : list Z) (min_range max_range bins : Z)
    (counts bin_edges : list Z) :
  build_histogram values min_range max_range bins = mret (counts, bin_edges) ->
  Forall (fun c => 0 <= c) counts /\ 0 <= sum_Z counts <= len values.
Proof.
  intros Hbuild.
  destruct (build_histogram_sum _ _ _ _ _ _ Hbuild) as [Hnonneg Hsum].
  split; [done|]. split; [by apply sum_Z_nonneg|].
  rewrite Hsum. unfold len.
  pose proof (length_filter_le (in_range min_range max_range) values). lia.
Qed.

Lemma histogram_counts_bounded_witness :
  Forall (fun c => 0 <= c) [1; 2] /\ 0 <= sum_Z [1; 2] <= len [5; 5; 1; 9].
Proof.
  apply (histogram_counts_bounded [5; 5; 1; 9] 1 5 2 [1; 2] [1; 3; 5]).
  vm_compute. reflexivity.
Defined.



(** ** Truncation of the edges *)








(** ** One bin for each value of the range *)

Lemma map_fmap {A B : Type} (f : A -> B) (l : list A) : map f l = f <$> l.
Proof. induction l as [|x l IH]; simpl; [done|]. by rewrite IH. Qed.






(** ** Selection, once more *)






(** ** The labels of the bars *)

Lemma to_int_not_nil (x : Z) :
  Z.to_int x <> Decimal.Pos Decimal.Nil /\ Z.to_int x <> Decimal.Neg Decimal.Nil.
Proof.
  destruct x as [|p|p]; simpl; split; try discriminate;
    intros [= H]; by apply DecimalPos.Unsigned.to_uint_nonnil in H.
Qed.

Lemma str_parse (x : Z) : NilZero.int_of_string (str x) = Some (Z.to_int x).
Proof.
  unfold str. destruct (to_int_not_nil x) as [H1 H2]. by apply NilZero.isi.
Qed.

(** [str] writes an integer so that it can be read back: parsing the text
    gives the number again, so different numbers have different texts. *)
Theorem str_round_trip (x y : Z) :
  (Z.of_int <$> NilZero.int_of_string (str x) = Some x)
  /\ (str x = str y -> x = y).
Proof.
  split.
  - rewrite str_parse. simpl. f_equal. apply DecimalZ.of_to.
  - intros Heq. apply DecimalZ.to_int_inj.
    assert (Some (Z.to_int x) = Some (Z.to_int y)) as [= ->]; [|done].
    by rewrite <- !str_parse, Heq.
Qed.



(** ** The order of the aggregate values *)

Lemma py_max_Permutation (l l' : list Z) : l ≡ₚ l' -> py_max l = py_max l'.
Proof.
  intros Hperm. destruct l as [|x l], l' as [|y l']; [done|..].
  - by apply Permutation_nil_cons in Hperm.
  - symmetry in Hperm. by apply Permutation_nil_cons in Hperm.
  - unfold py_max. f_equal.
    destruct (foldl_max_spec l x) as [Hin Hmax].
    destruct (foldl_max_spec l' y) as [Hin' Hmax'].
    rewrite Forall_forall in Hmax, Hmax'.
    rewrite Hperm in Hin. rewrite <- Hperm in Hin'.
    specialize (Hmax _ Hin'). specialize (Hmax' _ Hin). lia.
Qed.

Lemma bincount_Permutation (indices indices' : list Z) (n : Z) :
  indices ≡ₚ indices' -> numpy.bincount indices n = numpy.bincount indices' n.
Proof.
  intros Hperm. unfold numpy.bincount. apply map_ext. intros b.
  unfold len. f_equal. apply Permutation_length. by rewrite Hperm.
Qed.

(** The range and the histogram depend on which aggregate values there are
    and how often, not on the order in which the dictionary hands them out. *)
Theorem histogram_order_independent (values values' : list Z)
    (override_min override_max : option Z) (bins : Z) :
  values ≡ₚ values' ->
  resolve_range values override_min override_max =
    resolve_range values' override_min override_max
  /\ forall min_range max_range,
       build_histogram values min_range max_range bins =
       build_histogram values' min_range max_range bins.
Proof.
  intros Hperm. split.
  - unfold resolve_range. by rewrite (py_max_Permutation _ _ Hperm).
  - intros min_range max_range. unfold build_histogram, numpy.histogram.
    destruct (n_bins bins min_range max_range <? 1); [reflexivity|].
    destruct (numpy.outer_edges (min_range, max_range)) as [e|[a b]]; [reflexivity|].
    cbn [mbind result_bind mret result_ret]. do 2 f_equal.
    apply bincount_Permutation, Permutation_map. by rewrite Hperm.
Qed.

Lemma histogram_order_independent_witness :
  resolve_range [5; 5; 1] None None = resolve_range [1; 5; 5] None None
  /\ forall min_range max_range,
       build_histogram [5; 5; 1] min_range max_range 10 =
       build_histogram [1; 5; 5] min_range max_range 10.
Proof.
  apply (histogram_order_independent [5; 5; 1] [1; 5; 5] None None 10).
  symmetry. apply (Permutation_cons_append [5; 5] 1).
Defined.

(** ** The selection message *)

(** With neither [--md5] nor [--name], the message about the selectors is
    still written as soon as a file before the last one holds a signature,
    because the size of the last list is compared with the total of all
    files. *)
Theorem selection_message_without_selectors (sm : Sourmash) (args : Namespace)
    (earlier : list string) (last : string) :
  args_signatures args = earlier ++ [last] ->
  args_md5 args = None -> args_name args = None ->
  (exists k, notify_ev "selected {} via name / md5 selectors" [k]
             ∈ (run (abundhist sm args)).1)
  <-> sum_Z ((fun f => len (load_file_as_signatures sm f (args_ksize args)
                              (calculate_moltype sm args))) <$> earlier) <> 0.
Proof.
  intros Hsigs Hmd5 Hname.
  rewrite abundhist_run. unfold load_loop. rewrite Hsigs, load_loop_snoc.
  cbn [fst snd]. rewrite after_loop_from. cbv zeta.
  rewrite Hmd5, Hname. change (select None None ?l) with l.
  rewrite fmap_app, sum_Z_app, Z.add_0_l.
  set (siglist := load_file_as_signatures sm last _ _).
  set (before := sum_Z _).
  change (sum_Z ((fun f => len (load_file_as_signatures sm f (args_ksize args)
                             (calculate_moltype sm args))) <$> [last]))
    with (len siglist + 0).
  destruct (Z.eqb_spec (len siglist) (before + (len siglist + 0))) as [Heq|Hne];
    cbn [negb].
  - split; [|lia]. intros [k Hin]. exfalso.
    destruct (resolve_range _ _ _) as [e|[min_range max_range]];
      [|destruct (build_histogram _ _ _ _) as [e|[counts bin_edges]]];
      cbn [fst] in Hin; split_elem_of Hin.
  - split; [lia|]. intros _. exists (len siglist).
    destruct (resolve_range _ _ _) as [e|[min_range max_range]];
      [|destruct (build_histogram _ _ _ _) as [e|[counts bin_edges]]];
      cbn [fst]; rewrite ?elem_of_app, !elem_of_cons; tauto.
Qed.

Lemma selection_message_without_selectors_witness :
  (exists k, notify_ev "selected {} via name / md5 selectors" [k]
             ∈ (run (abundhist sm_ex (args_ex ["a.sig"; "b.sig"]%string))).1)
  <-> sum_Z ((fun f => len (load_file_as_signatures sm_ex f 31 None))
               <$> ["a.sig"%string]) <> 0.
Proof.
  apply (selection_message_without_selectors sm_ex
           (args_ex ["a.sig"; "b.sig"]%string) ["a.sig"%string] "b.sig"%string);
    reflexivity.
Defined.
